(** * FreeCell card positioning: [card_layout]

    A shallow embedding of [src/card_positioning.py] and the properties of
    its vertical stacking offsets.

    Numbers.  Python's [/] is true division and yields a float; the module
    level names it reads are numbers as well.  Floats are idealised here as
    exact rationals ([Q]): rounding is out of scope, while the control flow
    that Python attaches to arithmetic (a zero divisor raises
    [ZeroDivisionError]) is kept.  Card counts and loop indices are Python
    [int]s and are modelled as [Z].  Equality of computed numbers is [Qeq]
    ([==]); a number the code stores without computing on it (the initial
    [0], [pixel_visibility]) is compared with Leibniz equality. *)

From Stdlib Require Import ZArith QArith Qround Lia Lqa String.
From stdpp Require Import base list.

Local Open Scope Z_scope.

(** ** Exceptions and the error monad *)

Module Py.

(** A Python exception, identified by the name of its class. *)
Definition exn : Type := string.

Definition ZeroDivisionError : exn := "ZeroDivisionError"%string.

(** Outcome of a call: a returned value or a raised exception. *)
Inductive result (A : Type) : Type :=
| Ok (a : A)
| Raise (e : exn).
Arguments Ok {A} a.
Arguments Raise {A} e.

Definition bind {A B : Type} (m : result A) (k : A -> result B) : result B :=
  match m with
  | Ok a => k a
  | Raise e => Raise e
  end.

(** [a / b]: true division, raising on a zero divisor. *)
Definition div (a b : Q) : result Q :=
  if Qeq_bool b 0 then Raise ZeroDivisionError else Ok (a / b)%Q.

(** [max(a, b)]: the first argument is kept unless the second one is
    strictly greater. *)
Definition max (a b : Q) : Q :=
  if Qlt_le_dec a b then b else a.

(** [math.ceil]. *)
Definition ceil (x : Q) : Z := Qceiling x.

(** [sum(l)]: the total of a list, added up from [0]. *)
Definition sum (l : list Q) : Q := foldl Qplus 0%Q l.

End Py.

Notation "x <- m ;; k" := (Py.bind m (fun x => k))
  (at level 100, m at next level, right associativity).

(** ** The module's ambient names

    [card_positioning.py] reads [window_height], [card_height],
    [pixel_visibility] and [max_cards] without defining them; they are
    supplied by the surrounding game and are taken here as one record. *)

Record Globals : Type := MkGlobals {
  window_height : Q;
  card_height : Q;
  pixel_visibility : Q;
  max_cards : Q
}.

Definition COMPRESSED_CARD_GROUP_SIZE : Z := 4.

Definition COMPRESSION_FACTOR (g : Globals) : Q :=
  (card_height g * (2 / 100))%Q.

(** ** Derived quantities (lines 8 to 14) *)

Definition min_num_cards (g : Globals) : Py.result Z :=
  q <- Py.div (window_height g - card_height g)%Q (pixel_visibility g) ;;
  Py.Ok (Py.ceil q).

Definition min_pixel_visibility (g : Globals) : Py.result Q :=
  Py.div (window_height g - card_height g)%Q (max_cards g - 1)%Q.

Definition compression_visibility (g : Globals) (excess : Z) (min_pv : Q) : Q :=
  Py.max (pixel_visibility g - inject_Z excess * COMPRESSION_FACTOR g)%Q min_pv.

Definition leftover_visibility (g : Globals) (current_card_count : Z) (cv : Q)
  : Py.result Q :=
  Py.div
    (window_height g - card_height g - cv * inject_Z COMPRESSED_CARD_GROUP_SIZE)%Q
    (inject_Z (current_card_count - COMPRESSED_CARD_GROUP_SIZE - 1)).

(** ** The loop (lines 16 to 24) *)

(** The shift chosen for a card that is not the bottom one. *)
Definition shift (g : Globals) (current_card_count min_num : Z) (cv lv : Q)
    (i : Z) : Q :=
  if current_card_count <=? min_num then pixel_visibility g
  else if current_card_count - i <=? COMPRESSED_CARD_GROUP_SIZE then cv
  else lv.

(** One iteration: the bottom card is skipped ([continue]), any other index
    is overwritten in place. *)
Definition loop_body (g : Globals) (current_card_count min_num : Z) (cv lv : Q)
    (allocations : list Q) (i : Z) : list Q :=
  if i =? current_card_count - 1 then allocations
  else <[Z.to_nat i := shift g current_card_count min_num cv lv i]> allocations.

(** ** [card_layout] *)

Definition card_layout (g : Globals) (current_card_count : Z)
    (focus_card_index : Z) : Py.result (list Q) :=
  let allocations := replicate (Z.to_nat current_card_count) 0%Q in
  min_num <- min_num_cards g ;;
  min_pv <- min_pixel_visibility g ;;
  let excess := current_card_count - min_num in
  let cv := compression_visibility g excess min_pv in
  lv <- leftover_visibility g current_card_count cv ;;
  Py.Ok (foldl (loop_body g current_card_count min_num cv lv) allocations
           (seqZ 0 current_card_count)).

(** The consumer's contract, from the closing comment of the source: a
    card's [y] is the previous card's [y] plus an allocation.  Run over the
    whole list from the renderer's origin this is the [y] of the bottom
    card (whose own entry adds nothing). *)
Definition stack_y (origin : Q) (allocations : list Q) : Q :=
  foldl Qplus origin allocations.

(** The configuration of the specification's concrete scenario; its
    [COMPRESSION_FACTOR] is [200 * (2 / 100)], that is [4]. *)
Definition scenario : Globals :=
  {| window_height := 800; card_height := 200;
     pixel_visibility := 100; max_cards := 10 |}.

(** The scenario with a single card allowed: line 10 divides by zero. *)
Definition one_card_max : Globals :=
  {| window_height := 800; card_height := 200;
     pixel_visibility := 100; max_cards := 1 |}.

(** A valid configuration whose full visibility is large for the window:
    four compressed cards alone overflow the available height. *)
Definition wide_visibility : Globals :=
  {| window_height := 800; card_height := 200;
     pixel_visibility := 200; max_cards := 10 |}.

(** ** Closed forms used by the proofs

    The values the derived quantities take when no division raises, and the
    entry the loop leaves at index [i]. *)

Definition available (g : Globals) : Q := (window_height g - card_height g)%Q.

Definition min_num_of (g : Globals) : Z :=
  Py.ceil (available g / pixel_visibility g)%Q.

Definition min_pv_of (g : Globals) : Q :=
  (available g / (max_cards g - 1))%Q.

Definition cv_of (g : Globals) (n : Z) : Q :=
  compression_visibility g (n - min_num_of g) (min_pv_of g).

Definition lv_of (g : Globals) (n : Z) : Q :=
  ((available g - cv_of g n * inject_Z COMPRESSED_CARD_GROUP_SIZE)
   / inject_Z (n - COMPRESSED_CARD_GROUP_SIZE - 1))%Q.

Definition allocation_at (g : Globals) (n min_num : Z) (cv lv : Q) (i : Z) : Q :=
  if i =? n - 1 then 0%Q else shift g n min_num cv lv i.

Definition layout_of (g : Globals) (n : Z) : list Q :=
  allocation_at g n (min_num_of g) (cv_of g n) (lv_of g n) <$> seqZ 0 n.

(** The input constraints of the calculator. *)
Definition valid (g : Globals) : Prop :=
  (card_height g < window_height g)%Q /\ (0 < card_height g)%Q /\
  (1 < max_cards g)%Q /\ (0 < pixel_visibility g)%Q.

(** * Properties *)

(** ** Arithmetic helpers *)

Lemma Qneq_bool_false (x y : Q) : ~ (x == y)%Q -> Qeq_bool x y = false.
Proof.
  intros H. destruct (Qeq_bool x y) eqn:E; [|reflexivity].
  apply Qeq_bool_iff in E. contradiction.
Qed.

(** ** The loop *)

Section Loop.
Variables (g : Globals) (n min_num : Z) (cv lv : Q).

(** After the first [k] iterations the first [k] entries are final and the
    others still hold the initial [0]. *)
Lemma loop_prefix (k : nat) :
  Z.of_nat k <= n ->
  foldl (loop_body g n min_num cv lv) (replicate (Z.to_nat n) 0%Q)
    (seqZ 0 (Z.of_nat k))
  = (allocation_at g n min_num cv lv <$> seqZ 0 (Z.of_nat k))
    ++ replicate (Z.to_nat n - k)%nat 0%Q.
Proof.
  induction k as [|k IH]; intros Hk.
  - rewrite seqZ_nil by lia. simpl. f_equal. lia.
  - rewrite seqZ_S, foldl_snoc, fmap_app, IH by lia. clear IH.
    replace (Z.to_nat n - k)%nat with (S (Z.to_nat n - S k)) by lia.
    rewrite <- app_assoc, Z.add_0_l. simpl.
    unfold loop_body.
    assert (Hk' : allocation_at g n min_num cv lv (Z.of_nat k)
                  = if Z.of_nat k =? n - 1 then 0%Q
                    else shift g n min_num cv lv (Z.of_nat k)) by reflexivity.
    rewrite Hk'. clear Hk'.
    destruct (Z.of_nat k =? n - 1) eqn:E; [reflexivity|].
    replace (Z.to_nat (Z.of_nat k))
      with (length (allocation_at g n min_num cv lv <$> seqZ 0 (Z.of_nat k)) + 0)%nat
      by (rewrite length_fmap, length_seqZ; lia).
    rewrite insert_app_r. reflexivity.
Qed.

Lemma loop_total :
  foldl (loop_body g n min_num cv lv) (replicate (Z.to_nat n) 0%Q) (seqZ 0 n)
  = allocation_at g n min_num cv lv <$> seqZ 0 n.
Proof.
  destruct (Z.le_gt_cases n 0) as [Hn|Hn].
  - rewrite seqZ_nil by lia. replace (Z.to_nat n) with 0%nat by lia. reflexivity.
  - pose proof (loop_prefix (Z.to_nat n)) as H.
    rewrite Z2Nat.id, Nat.sub_diag, app_nil_r in H by lia. apply H. lia.
Qed.
End Loop.

(** ** [card_layout] as one equation: which inputs raise, and what is
    returned otherwise *)

Lemma card_layout_eq (g : Globals) (n f : Z) :
  card_layout g n f =
  if Qeq_bool (pixel_visibility g) 0 then Py.Raise Py.ZeroDivisionError
  else if Qeq_bool (max_cards g - 1) 0 then Py.Raise Py.ZeroDivisionError
  else if n =? 5 then Py.Raise Py.ZeroDivisionError
  else Py.Ok (layout_of g n).
Proof.
  unfold card_layout, min_num_cards, min_pixel_visibility, leftover_visibility, Py.div.
  fold (available g).
  destruct (Qeq_bool (pixel_visibility g) 0); [reflexivity|]. cbn [Py.bind].
  destruct (Qeq_bool (max_cards g - 1) 0); [reflexivity|]. cbn [Py.bind].
  replace (Qeq_bool (inject_Z (n - COMPRESSED_CARD_GROUP_SIZE - 1)) 0) with (n =? 5).
  2:{ unfold Qeq_bool, COMPRESSED_CARD_GROUP_SIZE. simpl.
      rewrite Z.mul_1_r. destruct (Z.eqb_spec n 5) as [->|]; [reflexivity|].
      symmetry. apply Z.eqb_neq. lia. }
  destruct (n =? 5); [reflexivity|]. cbn [Py.bind].
  rewrite loop_total. reflexivity.
Qed.

(** A valid configuration never makes lines 8 and 10 raise, so only a card
    count of five does. *)
Lemma valid_divisors (g : Globals) :
  valid g ->
  Qeq_bool (pixel_visibility g) 0 = false /\ Qeq_bool (max_cards g - 1) 0 = false.
Proof.
  intros (_ & _ & Hm & Hp). split; apply Qneq_bool_false; lra.
Qed.

(** The closed forms are what lines 8, 10 and 14 compute. *)
Lemma derived_quantities (g : Globals) (n : Z) :
  valid g -> n <> 5 ->
  min_num_cards g = Py.Ok (min_num_of g) /\
  min_pixel_visibility g = Py.Ok (min_pv_of g) /\
  leftover_visibility g n (cv_of g n) = Py.Ok (lv_of g n).
Proof.
  intros Hv Hn. destruct (valid_divisors g Hv) as [Hp Hm].
  unfold min_num_cards, min_pixel_visibility, leftover_visibility, Py.div.
  rewrite Hp, Hm. repeat split.
  rewrite Qneq_bool_false; [reflexivity|].
  change 0%Q with (inject_Z 0). rewrite inject_Z_injective.
  unfold COMPRESSED_CARD_GROUP_SIZE. lia.
Qed.

Lemma card_layout_valid (g : Globals) (n f : Z) :
  valid g -> n <> 5 -> card_layout g n f = Py.Ok (layout_of g n).
Proof.
  intros Hv Hn. rewrite card_layout_eq.
  destruct (valid_divisors g Hv) as [-> ->].
  destruct (Z.eqb_spec n 5); [contradiction|reflexivity].
Qed.

Lemma card_layout_Ok (g : Globals) (n f : Z) (l : list Q) :
  card_layout g n f = Py.Ok l -> l = layout_of g n /\ n <> 5.
Proof.
  rewrite card_layout_eq.
  destruct (Qeq_bool (pixel_visibility g) 0); [discriminate|].
  destruct (Qeq_bool (max_cards g - 1) 0); [discriminate|].
  destruct (Z.eqb_spec n 5); [discriminate|].
  intros [= <-]. auto.
Qed.

Lemma card_layout_Raise (g : Globals) (n f : Z) (e : Py.exn) :
  card_layout g n f = Py.Raise e -> e = Py.ZeroDivisionError.
Proof.
  rewrite card_layout_eq.
  repeat match goal with |- context [if ?b then _ else _] => destruct b end;
    congruence.
Qed.

(** ** Shape of the returned list *)

Lemma length_layout_of (g : Globals) (n : Z) :
  length (layout_of g n) = Z.to_nat n.
Proof. unfold layout_of. rewrite length_fmap, length_seqZ. reflexivity. Qed.

Lemma lookup_layout_of (g : Globals) (n i : Z) :
  0 <= i < n ->
  layout_of g n !! Z.to_nat i
  = Some (allocation_at g n (min_num_of g) (cv_of g n) (lv_of g n) i).
Proof.
  intros Hi. unfold layout_of.
  rewrite list_lookup_fmap, lookup_seqZ_lt by lia.
  simpl. do 2 f_equal. lia.
Qed.

Lemma last_layout_of (g : Globals) (n : Z) :
  1 <= n -> last (layout_of g n) = Some 0%Q.
Proof.
  intros Hn. rewrite last_lookup, length_layout_of.
  replace (Nat.pred (Z.to_nat n)) with (Z.to_nat (n - 1)) by lia.
  rewrite lookup_layout_of by lia.
  unfold allocation_at. rewrite Z.eqb_refl. reflexivity.
Qed.

Lemma valid_scenario : valid scenario.
Proof. unfold valid, scenario; simpl. repeat split. Qed.

(** ** Length and bottom card *)

(** C8. For a card count of at least one, whenever [card_layout] returns, the
    returned list has exactly [current_card_count] entries and its last
    entry is the untouched initial [0]; and it does return for every valid
    configuration unless the count is five. *)
Theorem card_layout_length_last (g : Globals) (n f : Z) :
  1 <= n ->
  (forall l, card_layout g n f = Py.Ok l ->
             length l = Z.to_nat n /\ last l = Some 0%Q) /\
  (valid g -> n <> 5 -> exists l, card_layout g n f = Py.Ok l).
Proof.
  intros Hn. split.
  - intros l Hl. apply card_layout_Ok in Hl as [-> _].
    split; [apply length_layout_of | apply last_layout_of; exact Hn].
  - intros Hv H5. exists (layout_of g n). apply card_layout_valid; assumption.
Qed.

Lemma card_layout_length_last_witness :
  length [100%Q; 100%Q; 100%Q; 100%Q; 100%Q; 0%Q] = Z.to_nat 6 /\
  last [100%Q; 100%Q; 100%Q; 100%Q; 100%Q; 0%Q] = Some 0%Q.
Proof.
  refine (proj1 (card_layout_length_last scenario 6 0 _) _ _).
  - lia.
  - reflexivity.
Defined.

(** ** The unused parameter *)

(** C9. [focus_card_index] is never read: two calls that differ only in it
    give the same outcome, value or exception.  With equal indices this is
    the repeatability of a call, which the embedding has by construction
    since the code writes to nothing but its own fresh list. *)
Theorem card_layout_focus_irrelevant (g : Globals) (n f1 f2 : Z) :
  card_layout g n f1 = card_layout g n f2.
Proof. reflexivity. Qed.

(** ** A single card *)

(** C10. With one card and a valid configuration the result is [[0]]: no
    divisor is zero (line 14 divides by [1 - 4 - 1]) and the only iteration
    of the loop is the skipped bottom card. *)
Theorem card_layout_single (g : Globals) (f : Z) :
  valid g -> card_layout g 1 f = Py.Ok [0%Q].
Proof.
  intros Hv. rewrite card_layout_valid by (assumption || lia). reflexivity.
Qed.

Lemma card_layout_single_witness : card_layout scenario 1 0 = Py.Ok [0%Q].
Proof. exact (card_layout_single scenario 0 valid_scenario). Defined.

(** ** The uncompressed branch *)

(** C7. In a valid configuration, for a count between one and
    [min_num_cards], every entry above the bottom card of a returned list
    is [pixel_visibility] itself; and the call does return unless the count
    is five, where line 14 raises. *)
Theorem card_layout_uncompressed (g : Globals) (n f : Z) :
  valid g -> 1 <= n <= min_num_of g ->
  (forall l, card_layout g n f = Py.Ok l ->
             forall i, 0 <= i <= n - 2 ->
                       l !! Z.to_nat i = Some (pixel_visibility g)) /\
  (n <> 5 -> exists l, card_layout g n f = Py.Ok l).
Proof.
  intros Hv Hn. split.
  - intros l Hl i Hi. apply card_layout_Ok in Hl as [-> _].
    rewrite lookup_layout_of by lia.
    unfold allocation_at, shift.
    destruct (Z.eqb_spec i (n - 1)); [lia|].
    destruct (Z.leb_spec n (min_num_of g)); [reflexivity|lia].
  - intros H5. exists (layout_of g n). apply card_layout_valid; assumption.
Qed.

Lemma card_layout_uncompressed_witness :
  [100; 100; 100; 100; 100; 0]%Q !! Z.to_nat 4 = Some 100%Q /\
  exists l, card_layout scenario 6 0 = Py.Ok l.
Proof.
  assert (H : 1 <= 6 <= min_num_of scenario) by (vm_compute; split; discriminate).
  split.
  - refine (proj1 (card_layout_uncompressed scenario 6 0 valid_scenario H) _ _ 4 _).
    + reflexivity.
    + lia.
  - apply (proj2 (card_layout_uncompressed scenario 6 0 valid_scenario H)). lia.
Defined.

(** ** Degenerate inputs *)

(** C5, as stated, fails: with no cards (here zero) the call returns the
    empty list and raises nothing. *)
Lemma card_layout_zero_returns :
  0 <= 0 /\ card_layout scenario 0 0 = Py.Ok [] /\
  forall e, card_layout scenario 0 0 <> Py.Raise e.
Proof. split; [lia|]. split; [reflexivity|]. intros e. discriminate. Qed.

(** C5, amended. The code validates nothing: for a count of zero or less
    and a valid configuration it returns the empty list ([[0] * n] is empty
    and the loop does not run); whatever the configuration, the only
    exception it can raise is [ZeroDivisionError]. *)
Theorem card_layout_nonpositive (g : Globals) (n f : Z) :
  n <= 0 ->
  (valid g -> card_layout g n f = Py.Ok []) /\
  (forall e, card_layout g n f = Py.Raise e -> e = Py.ZeroDivisionError).
Proof.
  intros Hn. split.
  - intros Hv. rewrite card_layout_valid by (assumption || lia).
    unfold layout_of. rewrite seqZ_nil by lia. reflexivity.
  - apply card_layout_Raise.
Qed.

Lemma card_layout_nonpositive_witness :
  card_layout scenario (-3) 0 = Py.Ok [].
Proof.
  refine (proj1 (card_layout_nonpositive scenario (-3) 0 _) valid_scenario).
  lia.
Defined.

(** C6, as stated, fails: with [max_cards = 1] the exception raised is
    Python's [ZeroDivisionError], not an [InvalidConfiguration]. *)
Lemma card_layout_max_cards_one_error :
  (max_cards one_card_max == 1)%Q /\
  card_layout one_card_max 6 0 = Py.Raise "ZeroDivisionError"%string /\
  card_layout one_card_max 6 0 <> Py.Raise "InvalidConfiguration"%string.
Proof. split; [reflexivity|]. split; [reflexivity|]. discriminate. Qed.

(** C6, amended. When [max_cards] is one, and when the card count is five,
    the call raises [ZeroDivisionError] (from line 8, 10 or 14) and so
    returns no list at all. *)
Theorem card_layout_zero_divisor (g : Globals) (n f : Z) :
  (max_cards g == 1)%Q \/ n = 5 ->
  card_layout g n f = Py.Raise Py.ZeroDivisionError.
Proof.
  intros H. rewrite card_layout_eq.
  destruct (Qeq_bool (pixel_visibility g) 0); [reflexivity|].
  destruct (Qeq_bool (max_cards g - 1) 0) eqn:E; [reflexivity|].
  destruct H as [H| ->]; [|reflexivity].
  apply QArith_base.Qeq_bool_neq in E. exfalso. apply E. rewrite H. reflexivity.
Qed.

Lemma card_layout_zero_divisor_witness :
  card_layout one_card_max 6 0 = Py.Raise Py.ZeroDivisionError /\
  card_layout scenario 5 0 = Py.Raise Py.ZeroDivisionError.
Proof.
  split.
  - apply (card_layout_zero_divisor one_card_max 6 0). left. reflexivity.
  - apply (card_layout_zero_divisor scenario 5 0). right. reflexivity.
Defined.

(** C3. The code at five cards.  Line 14 is executed on every call, before
    the loop and whatever the branch: in the scenario, where
    [min_num_cards] is six and all four shifts of a five-card stack would
    be [pixel_visibility], the unused division by [5 - 4 - 1] raises. *)
Theorem card_layout_five_uncompressed_raises :
  min_num_cards scenario = Py.Ok 6 /\
  card_layout scenario 5 0 = Py.Raise Py.ZeroDivisionError /\
  forall g f, card_layout g 5 f = Py.Raise Py.ZeroDivisionError.
Proof.
  split; [reflexivity|]. split; [reflexivity|].
  intros g f. rewrite card_layout_eq.
  destruct (Qeq_bool (pixel_visibility g) 0); [reflexivity|].
  destruct (Qeq_bool (max_cards g - 1) 0); reflexivity.
Qed.

(** ** The concrete scenario *)

(** C2. The scenario evaluated.  [min_num_cards] is 6 and six cards give
    [[100,100,100,100,100,0]]; with twelve cards the compressed visibility
    is 76, the entries at indices 8, 9 and 10 are 76 and the last entry is
    0.  The entry at index 7, the fourth card above the bottom one, is
    however the leftover visibility [296/7] and not 76: the test
    [current_card_count - i <= 4] of line 22 counts the bottom card into the
    group of four, whereas line 14 budgets four compressed shifts next to
    the bottom card.  The twelve shifts then add up to [3964/7], short of
    the 600 available. *)
Theorem card_layout_scenario :
  min_num_cards scenario = Py.Ok 6 /\
  card_layout scenario 6 0 = Py.Ok [100; 100; 100; 100; 100; 0]%Q /\
  (cv_of scenario 12 == 76)%Q /\
  (lv_of scenario 12 == 296 # 7)%Q /\
  exists l, card_layout scenario 12 0 = Py.Ok l /\
            last l = Some 0%Q /\
            Forall2 Qeq l
              (replicate 8 (lv_of scenario 12) ++ replicate 3 76%Q ++ [0%Q]) /\
            (exists x, l !! 7%nat = Some x /\ ~ (x == 76)%Q) /\
            (Py.sum l == 3964 # 7)%Q /\
            ~ (Py.sum l == available scenario)%Q.
Proof.
  split; [reflexivity|]. split; [reflexivity|].
  split; [reflexivity|]. split; [reflexivity|].
  eexists. split; [vm_compute; reflexivity|]. split; [reflexivity|].
  split; [repeat constructor|]. split; [|split].
  - eexists. split; [reflexivity|]. intros H. vm_compute in H. discriminate.
  - reflexivity.
  - intros H. vm_compute in H. discriminate.
Qed.

(** ** Signs of the derived quantities *)

Lemma Py_max_ge_r (a b : Q) : (b <= Py.max a b)%Q.
Proof. unfold Py.max. destruct (Qlt_le_dec a b); [apply Qle_refl|assumption]. Qed.

Lemma available_pos (g : Globals) : valid g -> (0 < available g)%Q.
Proof. intros (Hw & _). unfold available. lra. Qed.

Lemma min_pv_pos (g : Globals) : valid g -> (0 < min_pv_of g)%Q.
Proof.
  intros Hv. pose proof (available_pos g Hv) as Ha. destruct Hv as (_ & _ & Hm & _).
  unfold min_pv_of. apply Qlt_shift_div_l; lra.
Qed.

Lemma cv_pos (g : Globals) (n : Z) : valid g -> (0 < cv_of g n)%Q.
Proof.
  intros Hv. unfold cv_of, compression_visibility.
  eapply Qlt_le_trans; [apply min_pv_pos, Hv | apply Py_max_ge_r].
Qed.

(** Up to [min_num_cards] cards fit at full visibility with room to spare. *)
Lemma uncompressed_fits (g : Globals) (n : Z) :
  valid g -> n <= min_num_of g ->
  (inject_Z (n - 1) * pixel_visibility g < available g)%Q.
Proof.
  intros Hv Hn. destruct Hv as (_ & _ & _ & Hp).
  unfold min_num_of, Py.ceil in Hn.
  pose proof (Qceiling_lt (available g / pixel_visibility g)) as Hc.
  assert (Hle : (inject_Z (n - 1)
                 <= inject_Z (Qceiling (available g / pixel_visibility g) - 1))%Q).
  { rewrite <- Zle_Qle. lia. }
  assert (Hlt : (inject_Z (n - 1) < available g / pixel_visibility g)%Q)
    by (eapply Qle_lt_trans; eassumption).
  apply (Qmult_lt_compat_r _ _ _ Hp) in Hlt.
  setoid_replace (available g / pixel_visibility g * pixel_visibility g)%Q
    with (available g) using relation Qeq in Hlt by (field; lra).
  exact Hlt.
Qed.

(** Above five cards the leftover visibility has the sign of what the
    four-card budget of line 14 leaves. *)
Lemma lv_nonneg_iff (g : Globals) (n : Z) :
  5 < n ->
  (0 <= lv_of g n)%Q <->
  (cv_of g n * inject_Z COMPRESSED_CARD_GROUP_SIZE <= available g)%Q.
Proof.
  intros Hn. unfold lv_of.
  assert (Hd : (0 < inject_Z (n - COMPRESSED_CARD_GROUP_SIZE - 1))%Q).
  { change 0%Q with (inject_Z 0). rewrite <- Zlt_Qlt.
    unfold COMPRESSED_CARD_GROUP_SIZE. lia. }
  set (d := inject_Z (n - COMPRESSED_CARD_GROUP_SIZE - 1)) in *.
  set (a := (available g - cv_of g n * inject_Z COMPRESSED_CARD_GROUP_SIZE)%Q).
  split.
  - intros H. apply (Qmult_le_compat_r _ _ d) in H; [|lra].
    setoid_replace (a / d * d)%Q with a using relation Qeq in H by (field; lra).
    subst a. lra.
  - intros H. apply Qle_shift_div_l; [exact Hd|]. subst a. lra.
Qed.

(** ** Sign of the entries *)

Lemma Forall_layout_of (P : Q -> Prop) (g : Globals) (n : Z) :
  Forall P (layout_of g n) <->
  forall i, 0 <= i < n ->
            P (allocation_at g n (min_num_of g) (cv_of g n) (lv_of g n) i).
Proof.
  unfold layout_of. rewrite Forall_fmap, Forall_seqZ. simpl.
  split; intros H i Hi; apply H; lia.
Qed.

(** The four ways an entry is produced. *)
Lemma allocation_at_cases (g : Globals) (n min_num : Z) (cv lv : Q) (i : Z) :
  let a := allocation_at g n min_num cv lv i in
  (i = n - 1 /\ a = 0%Q) \/
  (i <> n - 1 /\ n <= min_num /\ a = pixel_visibility g) \/
  (i <> n - 1 /\ min_num < n /\ n - i <= COMPRESSED_CARD_GROUP_SIZE /\ a = cv) \/
  (i <> n - 1 /\ min_num < n /\ COMPRESSED_CARD_GROUP_SIZE < n - i /\ a = lv).
Proof.
  unfold allocation_at, shift. simpl.
  destruct (Z.eqb_spec i (n - 1)); [left; auto|].
  destruct (Z.leb_spec n min_num); [right; left; auto|].
  destruct (Z.leb_spec (n - i) COMPRESSED_CARD_GROUP_SIZE);
    right; right; [left|right]; auto.
Qed.

(** C4, as stated, fails: in a valid configuration with six cards the two
    topmost entries are the leftover visibility [-152]. *)
Lemma card_layout_negative_leftover :
  valid wide_visibility /\ 1 <= 6 /\ 6 <> 5 /\
  exists l x, card_layout wide_visibility 6 0 = Py.Ok l /\
              l !! 0%nat = Some x /\ (x < 0)%Q.
Proof.
  split; [unfold valid, wide_visibility; simpl; repeat split|].
  split; [lia|]. split; [lia|].
  eexists _, _. split; [vm_compute; reflexivity|]. split; reflexivity.
Qed.

(** C4, amended. For a valid configuration and a count of at least one
    other than five, the call returns, and all entries are non-negative
    exactly when the layout is uncompressed, or has fewer than five cards,
    or four compressed visibilities fit in the available height.  The full
    and the compressed visibility are always positive; the leftover
    visibility is negative once [4 * compression_visibility] exceeds
    [window_height - card_height]. *)
Theorem card_layout_nonneg_iff (g : Globals) (n f : Z) :
  valid g -> 1 <= n -> n <> 5 ->
  exists l, card_layout g n f = Py.Ok l /\
            (Forall (fun x => (0 <= x)%Q) l <->
             n <= min_num_of g \/ n < 5 \/
             (cv_of g n * inject_Z COMPRESSED_CARD_GROUP_SIZE <= available g)%Q).
Proof.
  intros Hv Hn H5. exists (layout_of g n).
  split; [apply card_layout_valid; assumption|].
  rewrite Forall_layout_of. split.
  - intros H.
    destruct (Z.le_gt_cases n (min_num_of g)) as [Hm|Hm]; [left; exact Hm|].
    destruct (Z.lt_ge_cases n 5) as [Hs|Hs]; [right; left; exact Hs|].
    right; right. apply lv_nonneg_iff; [lia|].
    specialize (H 0 ltac:(lia)).
    destruct (allocation_at_cases g n (min_num_of g) (cv_of g n) (lv_of g n) 0)
      as [[? _]|[(_ & ? & _)|[(_ & _ & Hc & _)|(_ & _ & _ & Ha)]]];
      unfold COMPRESSED_CARD_GROUP_SIZE in *; try lia.
    rewrite Ha in H. exact H.
  - intros H i Hi.
    destruct (allocation_at_cases g n (min_num_of g) (cv_of g n) (lv_of g n) i)
      as [[_ ->]|[(_ & _ & ->)|[(_ & _ & _ & ->)|(Hi' & Hm & Hc & ->)]]].
    + apply Qle_refl.
    + destruct Hv as (_ & _ & _ & Hp). apply Qlt_le_weak, Hp.
    + apply Qlt_le_weak, cv_pos, Hv.
    + unfold COMPRESSED_CARD_GROUP_SIZE in Hc.
      apply lv_nonneg_iff; [lia|].
      destruct H as [H|[H|H]]; [lia|lia|exact H].
Qed.

Lemma card_layout_nonneg_iff_witness :
  exists l, card_layout scenario 12 0 = Py.Ok l /\
            (Forall (fun x => (0 <= x)%Q) l <->
             12 <= min_num_of scenario \/ 12 < 5 \/
             (cv_of scenario 12 * inject_Z COMPRESSED_CARD_GROUP_SIZE
              <= available scenario)%Q).
Proof.
  refine (card_layout_nonneg_iff scenario 12 0 valid_scenario _ _); lia.
Defined.

(** ** The list as runs of equal entries *)

Lemma fmap_seqZ_const {A : Type} (f : Z -> A) (m len : Z) (x : A) :
  (forall i, m <= i < m + len -> f i = x) ->
  f <$> seqZ m len = replicate (Z.to_nat len) x.
Proof.
  intros H. rewrite <- (length_seqZ m len). apply const_fmap.
  intros i y Hy. apply lookup_seqZ in Hy as [-> Hi]. apply H. lia.
Qed.

Lemma seqZ_singleton (m : Z) : seqZ m 1 = [m].
Proof. rewrite seqZ_cons by lia. rewrite seqZ_nil by lia. reflexivity. Qed.

Lemma layout_uncompressed (g : Globals) (n : Z) :
  1 <= n <= min_num_of g ->
  layout_of g n = replicate (Z.to_nat (n - 1)) (pixel_visibility g) ++ [0%Q].
Proof.
  intros Hn. unfold layout_of.
  replace (seqZ 0 n) with (seqZ 0 ((n - 1) + 1)) by (f_equal; lia).
  rewrite seqZ_app, fmap_app, seqZ_singleton by lia. f_equal.
  - apply fmap_seqZ_const. intros i Hi. unfold allocation_at, shift.
    destruct (Z.eqb_spec i (n - 1)); [lia|].
    destruct (Z.leb_spec n (min_num_of g)); [reflexivity|lia].
  - simpl. unfold allocation_at. rewrite Z.eqb_refl. reflexivity.
Qed.

Lemma layout_compressed (g : Globals) (n : Z) :
  min_num_of g < n -> 4 <= n ->
  layout_of g n
  = replicate (Z.to_nat (n - 4)) (lv_of g n) ++ replicate 3 (cv_of g n) ++ [0%Q].
Proof.
  intros Hm Hn. unfold layout_of.
  replace (seqZ 0 n) with (seqZ 0 ((n - 4) + (3 + 1))) by (f_equal; lia).
  rewrite (seqZ_app 0 (n - 4)), (seqZ_app _ 3 1), !fmap_app, seqZ_singleton by lia.
  f_equal; [|f_equal].
  - apply fmap_seqZ_const. intros i Hi. unfold allocation_at, shift.
    destruct (Z.eqb_spec i (n - 1)); [lia|].
    destruct (Z.leb_spec n (min_num_of g)); [lia|].
    destruct (Z.leb_spec (n - i) COMPRESSED_CARD_GROUP_SIZE);
      [unfold COMPRESSED_CARD_GROUP_SIZE in *; lia|reflexivity].
  - change 3%nat with (Z.to_nat 3).
    apply fmap_seqZ_const. intros i Hi. unfold allocation_at, shift.
    destruct (Z.eqb_spec i (n - 1)); [lia|].
    destruct (Z.leb_spec n (min_num_of g)); [lia|].
    destruct (Z.leb_spec (n - i) COMPRESSED_CARD_GROUP_SIZE);
      [reflexivity|unfold COMPRESSED_CARD_GROUP_SIZE in *; lia].
  - simpl. unfold allocation_at.
    replace (0 + (n - 4) + 3) with (n - 1) by lia.
    rewrite Z.eqb_refl. reflexivity.
Qed.

(** ** Sums *)

Lemma foldl_Qplus (o : Q) (l : list Q) : (foldl Qplus o l == o + Py.sum l)%Q.
Proof.
  unfold Py.sum. revert o. induction l as [|x l IH]; intros o; simpl.
  - ring.
  - rewrite (IH (o + x)%Q), (IH (0 + x)%Q). ring.
Qed.

Lemma sum_app (l k : list Q) : (Py.sum (l ++ k) == Py.sum l + Py.sum k)%Q.
Proof. unfold Py.sum at 1. rewrite foldl_app. apply foldl_Qplus. Qed.

Lemma sum_replicate (k : nat) (x : Q) :
  (Py.sum (replicate k x) == inject_Z (Z.of_nat k) * x)%Q.
Proof.
  induction k as [|k IH].
  - simpl. unfold Py.sum. simpl. ring.
  - change (replicate (S k) x) with ([x] ++ replicate k x).
    rewrite sum_app, IH, Nat2Z.inj_succ. unfold Z.succ. rewrite inject_Z_plus.
    unfold Py.sum. simpl. ring.
Qed.

Lemma stack_y_sum (origin : Q) (l : list Q) :
  (stack_y origin l == origin + Py.sum l)%Q.
Proof. apply foldl_Qplus. Qed.

(** The budget of line 14: four compressed and [n - 5] leftover
    visibilities fill the available height. *)
Lemma leftover_budget (g : Globals) (n : Z) :
  n <> 5 ->
  (cv_of g n * inject_Z COMPRESSED_CARD_GROUP_SIZE
   + inject_Z (n - COMPRESSED_CARD_GROUP_SIZE - 1) * lv_of g n == available g)%Q.
Proof.
  intros Hn. unfold lv_of. field.
  change 0%Q with (inject_Z 0). rewrite inject_Z_injective.
  unfold COMPRESSED_CARD_GROUP_SIZE. lia.
Qed.

(** What the loop hands out in the compressed branch: three compressed and
    [n - 4] leftover visibilities, one leftover more and one compressed less
    than line 14 budgets for. *)
Lemma compressed_sum (g : Globals) (n : Z) :
  5 < n -> min_num_of g < n ->
  (Py.sum (layout_of g n) == available g - cv_of g n + lv_of g n)%Q.
Proof.
  intros Hn Hm. rewrite layout_compressed by lia.
  rewrite !sum_app, !sum_replicate, Z2Nat.id by lia.
  rewrite <- (leftover_budget g n) by lia.
  unfold COMPRESSED_CARD_GROUP_SIZE.
  replace (n - 4) with ((n - 4 - 1) + 1) at 1 by lia.
  rewrite inject_Z_plus. unfold Py.sum. simpl. ring.
Qed.

(** ** Total shift *)

(** C1, as stated, fails: six cards in the scenario are laid out at full
    visibility and their shifts add up to 500, one hundred short of
    [window_height - card_height = 600]. *)
Lemma card_layout_six_sum :
  valid scenario /\ 5 < 6 /\
  exists l, card_layout scenario 6 0 = Py.Ok l /\
            (Py.sum l == 500)%Q /\ (available scenario == 600)%Q /\
            ~ (Py.sum l == available scenario)%Q.
Proof.
  split; [exact valid_scenario|]. split; [lia|].
  eexists. split; [reflexivity|]. split; [reflexivity|]. split; [reflexivity|].
  intros H. vm_compute in H. discriminate.
Qed.

(** C1, amended. For a valid configuration and more than five cards: in
    the uncompressed branch the call returns and the shifts add up to
    [(n - 1) * pixel_visibility], strictly less than
    [window_height - card_height], so that the bottom card lands above
    [origin + (window_height - card_height)]; in the compressed branch the
    derived quantities satisfy the budget
    [4 * compression_visibility + (n - 5) * leftover_visibility
     = window_height - card_height]. *)
Theorem card_layout_total_shift (g : Globals) (n f : Z) :
  valid g -> 5 < n ->
  (n <= min_num_of g ->
   exists l, card_layout g n f = Py.Ok l /\
             (Py.sum l == inject_Z (n - 1) * pixel_visibility g)%Q /\
             (Py.sum l < available g)%Q /\
             forall origin,
               (stack_y origin l
                == origin + inject_Z (n - 1) * pixel_visibility g)%Q) /\
  (min_num_of g < n ->
   (cv_of g n * inject_Z COMPRESSED_CARD_GROUP_SIZE
    + inject_Z (n - COMPRESSED_CARD_GROUP_SIZE - 1) * lv_of g n
    == available g)%Q).
Proof.
  intros Hv Hn. split.
  - intros Hm. exists (layout_of g n).
    split; [apply card_layout_valid; [assumption|lia]|].
    assert (Hs : (Py.sum (layout_of g n)
                  == inject_Z (n - 1) * pixel_visibility g)%Q).
    { rewrite layout_uncompressed by lia.
      rewrite sum_app, sum_replicate, Z2Nat.id by lia.
      unfold Py.sum. simpl. ring. }
    split; [exact Hs|]. split.
    + rewrite Hs. apply uncompressed_fits; assumption.
    + intros origin. rewrite stack_y_sum, Hs. reflexivity.
  - intros _. apply leftover_budget. lia.
Qed.

Lemma card_layout_total_shift_witness :
  exists l, card_layout scenario 6 0 = Py.Ok l /\
            (Py.sum l == inject_Z (6 - 1) * pixel_visibility scenario)%Q /\
            (Py.sum l < available scenario)%Q /\
            forall origin,
              (stack_y origin l
               == origin + inject_Z (6 - 1) * pixel_visibility scenario)%Q.
Proof.
  refine (proj1 (card_layout_total_shift scenario 6 0 valid_scenario _) _).
  - lia.
  - vm_compute. discriminate.
Defined.


(** * Further properties of [card_layout] *)

(** ** When the call returns *)


(** ** The compressed branch *)

Lemma layout_compressed_runs (g : Globals) (n : Z) :
  min_num_of g < n -> 1 <= n ->
  layout_of g n
  = replicate (Z.to_nat (n - 4)) (lv_of g n)
    ++ replicate (Z.to_nat (Z.min (n - 1) 3)) (cv_of g n) ++ [0%Q].
Proof.
  intros Hm Hn. unfold layout_of.
  replace (Z.to_nat (n - 4)) with (Z.to_nat (Z.max (n - 4) 0)) by lia.
  replace (seqZ 0 n)
    with (seqZ 0 (Z.max (n - 4) 0 + (Z.min (n - 1) 3 + 1))) by (f_equal; lia).
  rewrite (seqZ_app 0 (Z.max (n - 4) 0)), (seqZ_app _ (Z.min (n - 1) 3) 1),
    !fmap_app, seqZ_singleton by lia.
  f_equal; [|f_equal].
  - apply fmap_seqZ_const. intros i Hi. unfold allocation_at, shift.
    destruct (Z.eqb_spec i (n - 1)); [lia|].
    destruct (Z.leb_spec n (min_num_of g)); [lia|].
    destruct (Z.leb_spec (n - i) COMPRESSED_CARD_GROUP_SIZE);
      [unfold COMPRESSED_CARD_GROUP_SIZE in *; lia|reflexivity].
  - apply fmap_seqZ_const. intros i Hi. unfold allocation_at, shift.
    destruct (Z.eqb_spec i (n - 1)); [lia|].
    destruct (Z.leb_spec n (min_num_of g)); [lia|].
    destruct (Z.leb_spec (n - i) COMPRESSED_CARD_GROUP_SIZE);
      [reflexivity|unfold COMPRESSED_CARD_GROUP_SIZE in *; lia].
  - simpl. unfold allocation_at.
    replace (0 + Z.max (n - 4) 0 + Z.min (n - 1) 3) with (n - 1) by lia.
    rewrite Z.eqb_refl. reflexivity.
Qed.

(** X2. In the compressed branch the returned list is three runs: the
    leftover visibility for all cards but the bottom four, the compressed
    visibility for the (up to three) cards of the bottom four that are not
    the bottom card, and the final [0].  A stack of at most four cards
    never receives the leftover visibility. *)
Theorem card_layout_compressed_runs (g : Globals) (n f : Z) :
  valid g -> min_num_of g < n -> 1 <= n -> n <> 5 ->
  card_layout g n f
  = Py.Ok (replicate (Z.to_nat (n - 4)) (lv_of g n)
           ++ replicate (Z.to_nat (Z.min (n - 1) 3)) (cv_of g n) ++ [0%Q]).
Proof.
  intros Hv Hm Hn H5. rewrite card_layout_valid by assumption.
  f_equal. apply layout_compressed_runs; assumption.
Qed.

Lemma card_layout_compressed_runs_witness :
  card_layout scenario 7 0
  = Py.Ok (replicate (Z.to_nat (7 - 4)) (lv_of scenario 7)
           ++ replicate (Z.to_nat (Z.min (7 - 1) 3)) (cv_of scenario 7)
           ++ [0%Q]).
Proof.
  refine (card_layout_compressed_runs scenario 7 0 valid_scenario _ _ _).
  - vm_compute. reflexivity.
  - lia.
  - lia.
Defined.

(** ** Bounds on the compressed visibility *)

Lemma Py_max_mono_l (a a' b : Q) : (a <= a')%Q -> (Py.max a b <= Py.max a' b)%Q.
Proof.
  intros H. unfold Py.max.
  destruct (Qlt_le_dec a b), (Qlt_le_dec a' b); lra.
Qed.

Lemma Py_max_lt (a b c : Q) : (a < c)%Q -> (b < c)%Q -> (Py.max a b < c)%Q.
Proof. intros Ha Hb. unfold Py.max. destruct (Qlt_le_dec a b); assumption. Qed.

Lemma COMPRESSION_FACTOR_pos (g : Globals) :
  valid g -> (0 < COMPRESSION_FACTOR g)%Q.
Proof.
  intros (_ & Hc & _). unfold COMPRESSION_FACTOR.
  apply Qmult_lt_0_compat; [exact Hc|reflexivity].
Qed.

Lemma cv_antitone (g : Globals) (n n' : Z) :
  valid g -> n <= n' -> (cv_of g n' <= cv_of g n)%Q.
Proof.
  intros Hv Hn. unfold cv_of, compression_visibility. apply Py_max_mono_l.
  pose proof (COMPRESSION_FACTOR_pos g Hv) as Hc.
  assert (He : (inject_Z (n - min_num_of g) <= inject_Z (n' - min_num_of g))%Q)
    by (rewrite <- Zle_Qle; lia).
  apply (Qmult_le_compat_r _ _ (COMPRESSION_FACTOR g)) in He; [|lra].
  lra.
Qed.

Lemma cv_below_full (g : Globals) (n : Z) :
  valid g -> min_num_of g < n -> (min_pv_of g < pixel_visibility g)%Q ->
  (cv_of g n < pixel_visibility g)%Q.
Proof.
  intros Hv Hn Hf. unfold cv_of, compression_visibility.
  apply Py_max_lt; [|exact Hf].
  pose proof (COMPRESSION_FACTOR_pos g Hv) as Hc.
  assert (He : (inject_Z 1 <= inject_Z (n - min_num_of g))%Q)
    by (rewrite <- Zle_Qle; lia).
  apply (Qmult_le_compat_r _ _ (COMPRESSION_FACTOR g)) in He; [|lra].
  change (inject_Z 1) with 1%Q in He. lra.
Qed.

(** The entry of a card of the bottom group, above the bottom card, in the
    compressed branch. *)
Lemma lookup_layout_group (g : Globals) (n i : Z) :
  min_num_of g < n -> 0 <= i <= n - 2 -> n - i <= COMPRESSED_CARD_GROUP_SIZE ->
  layout_of g n !! Z.to_nat i = Some (cv_of g n).
Proof.
  intros Hm Hi Hg. rewrite lookup_layout_of by lia.
  unfold allocation_at, shift.
  destruct (Z.eqb_spec i (n - 1)); [lia|].
  destruct (Z.leb_spec n (min_num_of g)); [lia|].
  destruct (Z.leb_spec (n - i) COMPRESSED_CARD_GROUP_SIZE); [reflexivity|lia].
Qed.

(** X3. In the compressed branch every card of the bottom group that is not
    the bottom card shows at least the floor
    [(window_height - card_height) / (max_cards - 1)], which is positive;
    and when that floor is below the full visibility, it shows strictly
    less than the full visibility. *)
Theorem card_layout_group_bounds (g : Globals) (n f : Z) :
  valid g -> min_num_of g < n -> n <> 5 ->
  exists l, card_layout g n f = Py.Ok l /\
    forall i, 0 <= i <= n - 2 -> n - i <= COMPRESSED_CARD_GROUP_SIZE ->
      exists x, l !! Z.to_nat i = Some x /\
                (0 < min_pv_of g)%Q /\ (min_pv_of g <= x)%Q /\
                ((min_pv_of g < pixel_visibility g)%Q ->
                 (x < pixel_visibility g)%Q).
Proof.
  intros Hv Hm H5. exists (layout_of g n).
  split; [apply card_layout_valid; assumption|].
  intros i Hi Hg. exists (cv_of g n).
  split; [apply lookup_layout_group; assumption|].
  split; [apply min_pv_pos, Hv|].
  split; [apply Py_max_ge_r|].
  intros Hf. apply cv_below_full; assumption.
Qed.

Lemma card_layout_group_bounds_witness :
  exists l, card_layout scenario 12 0 = Py.Ok l /\
    forall i, 0 <= i <= 12 - 2 -> 12 - i <= COMPRESSED_CARD_GROUP_SIZE ->
      exists x, l !! Z.to_nat i = Some x /\
                (0 < min_pv_of scenario)%Q /\ (min_pv_of scenario <= x)%Q /\
                ((min_pv_of scenario < pixel_visibility scenario)%Q ->
                 (x < pixel_visibility scenario)%Q).
Proof.
  refine (card_layout_group_bounds scenario 12 0 valid_scenario _ _).
  - vm_compute. reflexivity.
  - lia.
Defined.

(** X4. Adding cards never widens the compressed group: for two counts in
    the compressed branch, the larger count gives the card just above the
    bottom card a visibility no greater than the smaller count does. *)
Theorem card_layout_compression_antitone (g : Globals) (n n' f f' : Z) :
  valid g -> min_num_of g < n -> 2 <= n -> n <= n' -> n <> 5 -> n' <> 5 ->
  exists l l' x x',
    card_layout g n f = Py.Ok l /\ card_layout g n' f' = Py.Ok l' /\
    l !! Z.to_nat (n - 2) = Some x /\ l' !! Z.to_nat (n' - 2) = Some x' /\
    (x' <= x)%Q.
Proof.
  intros Hv Hm H2 Hn H5 H5'.
  exists (layout_of g n), (layout_of g n'), (cv_of g n), (cv_of g n').
  split; [apply card_layout_valid; assumption|].
  split; [apply card_layout_valid; assumption|].
  split; [apply lookup_layout_group; unfold COMPRESSED_CARD_GROUP_SIZE; lia|].
  split; [apply lookup_layout_group; unfold COMPRESSED_CARD_GROUP_SIZE; lia|].
  apply cv_antitone; assumption.
Qed.

Lemma card_layout_compression_antitone_witness :
  exists l l' x x',
    card_layout scenario 7 0 = Py.Ok l /\ card_layout scenario 12 0 = Py.Ok l' /\
    l !! Z.to_nat (7 - 2) = Some x /\ l' !! Z.to_nat (12 - 2) = Some x' /\
    (x' <= x)%Q.
Proof.
  refine (card_layout_compression_antitone scenario 7 12 0 0 valid_scenario
            _ _ _ _ _); try lia.
  vm_compute. reflexivity.
Defined.

(** ** Where the bottom card lands in the compressed branch *)

Lemma lv_le_cv_iff (g : Globals) (n : Z) :
  5 < n ->
  (lv_of g n <= cv_of g n)%Q <->
  (available g <= inject_Z (n - 1) * cv_of g n)%Q.
Proof.
  intros Hn. pose proof (leftover_budget g n ltac:(lia)) as Hb.
  unfold COMPRESSED_CARD_GROUP_SIZE in Hb.
  assert (Hd : (0 < inject_Z (n - 4 - 1))%Q).
  { change 0%Q with (inject_Z 0). rewrite <- Zlt_Qlt. lia. }
  assert (Hn1 : (inject_Z (n - 1) == inject_Z (n - 4 - 1) + 4)%Q).
  { replace (n - 1) with ((n - 4 - 1) + 4) by lia.
    rewrite inject_Z_plus. reflexivity. }
  rewrite Hn1. change (inject_Z 4) with 4%Q in Hb.
  set (d := inject_Z (n - 4 - 1)) in *.
  rewrite <- (Qmult_le_l (lv_of g n) (cv_of g n) d Hd).
  split; intros H; lra.
Qed.

Lemma saturated_budget (g : Globals) (n : Z) :
  valid g -> (max_cards g <= inject_Z n)%Q ->
  (available g <= inject_Z (n - 1) * cv_of g n)%Q.
Proof.
  intros Hv Hn. pose proof (cv_pos g n Hv) as Hc.
  assert (Hf : (min_pv_of g <= cv_of g n)%Q) by apply Py_max_ge_r.
  destruct Hv as (_ & _ & Hm & _).
  assert (Ha : (available g == min_pv_of g * (max_cards g - 1))%Q)
    by (unfold min_pv_of; field; lra).
  assert (Hn1 : (inject_Z (n - 1) == inject_Z n - 1)%Q).
  { unfold Z.sub. rewrite inject_Z_plus. reflexivity. }
  rewrite Ha, Hn1.
  apply Qle_trans with (cv_of g n * (max_cards g - 1))%Q.
  - apply Qmult_le_compat_r; [exact Hf|lra].
  - rewrite (Qmult_comm (inject_Z n - 1)).
    apply Qmult_le_l; [exact Hc|lra].
Qed.

(** X5. In the compressed branch with more than five cards the shifts add
    up to [window_height - card_height - compression_visibility
    + leftover_visibility]; the bottom card therefore stays within the
    available height exactly when [n - 1] compressed visibilities cover
    it. *)
Theorem card_layout_compressed_total (g : Globals) (n f : Z) :
  valid g -> 5 < n -> min_num_of g < n ->
  exists l, card_layout g n f = Py.Ok l /\
            (Py.sum l == available g - cv_of g n + lv_of g n)%Q /\
            ((Py.sum l <= available g)%Q <->
             (available g <= inject_Z (n - 1) * cv_of g n)%Q).
Proof.
  intros Hv Hn Hm. exists (layout_of g n).
  split; [apply card_layout_valid; [assumption|lia]|].
  pose proof (compressed_sum g n Hn Hm) as Hs.
  split; [exact Hs|].
  rewrite <- (lv_le_cv_iff g n Hn), Hs. split; intros H; lra.
Qed.

Lemma card_layout_compressed_total_witness :
  exists l, card_layout scenario 12 0 = Py.Ok l /\
            (Py.sum l == available scenario - cv_of scenario 12
                         + lv_of scenario 12)%Q /\
            ((Py.sum l <= available scenario)%Q <->
             (available scenario <= inject_Z (12 - 1) * cv_of scenario 12)%Q).
Proof.
  refine (card_layout_compressed_total scenario 12 0 valid_scenario _ _).
  - lia.
  - vm_compute. reflexivity.
Defined.

(** X6. From [max_cards] cards on, in the compressed branch with more than
    five cards, the stack fits: the shifts add up to at most
    [window_height - card_height], so the bottom card is placed no lower
    than [origin + (window_height - card_height)]. *)
Theorem card_layout_saturated_fits (g : Globals) (n f : Z) :
  valid g -> 5 < n -> min_num_of g < n -> (max_cards g <= inject_Z n)%Q ->
  exists l, card_layout g n f = Py.Ok l /\
            (Py.sum l <= available g)%Q /\
            forall origin, (stack_y origin l <= origin + available g)%Q.
Proof.
  intros Hv Hn Hm Hx. exists (layout_of g n).
  split; [apply card_layout_valid; [assumption|lia]|].
  pose proof (compressed_sum g n Hn Hm) as Hs.
  pose proof (proj2 (lv_le_cv_iff g n Hn) (saturated_budget g n Hv Hx)) as Hl.
  assert (Hf : (Py.sum (layout_of g n) <= available g)%Q) by (rewrite Hs; lra).
  split; [exact Hf|].
  intros origin. rewrite stack_y_sum. lra.
Qed.

Lemma card_layout_saturated_fits_witness :
  exists l, card_layout scenario 12 0 = Py.Ok l /\
            (Py.sum l <= available scenario)%Q /\
            forall origin, (stack_y origin l <= origin + available scenario)%Q.
Proof.
  refine (card_layout_saturated_fits scenario 12 0 valid_scenario _ _ _).
  - lia.
  - vm_compute. reflexivity.
  - vm_compute. discriminate.
Defined.
